(** * disk_age: evolutionary age of a protoplanetary disk from its IR SED slope

    A shallow embedding of [src/disk_age.py] (one function, [Age]) and the
    properties of it that its specification states.

    Modelling choices.
    - Python [float] is IEEE binary64: Rocq's primitive [float].  Python [int]
      is [Z].
    - [scipy.interpolate.splrep] and [splint] are library code: they are
      parameters of the development ([splrep] builds a spline representation
      from the data, the degree and the smoothing factor; [splint a b tck] is
      the definite integral of that spline from [a] to [b], a Python float).
    - [print] writes to standard output; standard output is the state that
      [Age] threads, one entry per [print] call.
    - Exceptions are results: [Raise e]. *)

From Stdlib Require Import ZArith List String Ascii Bool Lia Floats.
Import ListNotations.

Set Warnings "-inexact-float,-register-all".

Local Open Scope Z_scope.

(** ** Python values *)

Inductive pyval : Type :=
| PyInt (n : Z)                (* int *)
| PyFloat (f : float)          (* float *)
| PyBool (b : bool)            (* bool, a subclass of int *)
| PyFloatSub (f : float)       (* an instance of a class derived from float,
                                  such as numpy.float64 *)
| PyNone
| PyList (l : list pyval).     (* a list, or another sequence, by the
                                  elements its iteration yields *)

Inductive pytype : Type :=
| TInt | TFloat | TBool | TFloatSub | TNoneType | TList.

Definition pytype_eqb (a b : pytype) : bool :=
  match a, b with
  | TInt, TInt | TFloat, TFloat | TBool, TBool
  | TFloatSub, TFloatSub | TNoneType, TNoneType | TList, TList => true
  | _, _ => false
  end.

(** [type(v)] *)
Definition type (v : pyval) : pytype :=
  match v with
  | PyInt _ => TInt
  | PyFloat _ => TFloat
  | PyBool _ => TBool
  | PyFloatSub _ => TFloatSub
  | PyNone => TNoneType
  | PyList _ => TList
  end.



(** [t in ts] for a list of types *)
Definition type_in (t : pytype) (ts : list pytype) : bool :=
  existsb (pytype_eqb t) ts.

Inductive pyerr : Type := TypeError | ZeroDivisionError | OverflowError.

Inductive res (A : Type) : Type :=
| Ok (a : A)
| Raise (e : pyerr).
Arguments Ok {A} a.
Arguments Raise {A} e.

(** ** Python numbers *)

Module PyNum.

(** The numeric content of a value: what the comparison and arithmetic
    operators see.  [True] is 1 and [False] is 0. *)
Inductive num : Type :=
| NInt (n : Z)
| NFloat (f : float).

Definition as_num (v : pyval) : option num :=
  match v with
  | PyInt n => Some (NInt n)
  | PyBool b => Some (NInt (Z.b2z b))
  | PyFloat f | PyFloatSub f => Some (NFloat f)
  | PyNone | PyList _ => None
  end.

(** The signed mantissa of a finite float. *)
Definition signed (s : bool) (m : positive) : Z :=
  if s then Z.neg m else Z.pos m.

(** Python compares an int with a float exactly, on their mathematical
    values: [Zcompare_float n x] compares [n] with [x]; [None] when [x] is
    a NaN. *)
Definition Zcompare_float (n : Z) (x : spec_float) : option comparison :=
  match x with
  | S754_nan => None
  | S754_infinity s => Some (if s then Gt else Lt)
  | S754_zero _ => Some (n ?= 0)
  | S754_finite s m e =>
      Some (if 0 <=? e then n ?= signed s m * 2 ^ e
            else n * 2 ^ (- e) ?= signed s m)
  end.

(** [x < y] *)
Definition num_lt (x y : num) : bool :=
  match x, y with
  | NInt a, NInt b => a <? b
  | NFloat a, NFloat b => PrimFloat.ltb a b
  | NInt a, NFloat b =>
      match Zcompare_float a (Prim2SF b) with Some Lt => true | _ => false end
  | NFloat a, NInt b =>
      match Zcompare_float b (Prim2SF a) with Some Gt => true | _ => false end
  end.

(** [x <= y] *)
Definition num_le (x y : num) : bool :=
  match x, y with
  | NInt a, NInt b => a <=? b
  | NFloat a, NFloat b => PrimFloat.leb a b
  | NInt a, NFloat b =>
      match Zcompare_float a (Prim2SF b) with
      | Some (Lt | Eq) => true
      | _ => false
      end
  | NFloat a, NInt b =>
      match Zcompare_float b (Prim2SF a) with
      | Some (Gt | Eq) => true
      | _ => false
      end
  end.

(** [x > y] is [y < x] with the operands swapped. *)
Definition num_gt (x y : num) : bool := num_lt y x.


(** Conversion of an int to a C double (round to nearest, ties to even);
    [None] is OverflowError, raised when the int is too large. *)
Definition int_to_double (n : Z) : option float :=
  match binary_normalize prec emax n 0 false with
  | S754_infinity _ => None
  | x => Some (SF2Prim x)
  end.

(** The C double of a numeric argument, as an extension function converts
    it. *)
Definition to_double (v : pyval) : res float :=
  match as_num v with
  | Some (NFloat f) => Ok f
  | Some (NInt n) =>
      match int_to_double n with
      | Some f => Ok f
      | None => Raise OverflowError
      end
  | None => Raise TypeError
  end.

(** [x < y] and [x > y] on values: TypeError unless both are numbers. *)
Definition py_lt (x y : pyval) : res bool :=
  match as_num x, as_num y with
  | Some a, Some b => Ok (num_lt a b)
  | _, _ => Raise TypeError
  end.

Definition py_gt (x y : pyval) : res bool :=
  match as_num x, as_num y with
  | Some a, Some b => Ok (num_gt a b)
  | _, _ => Raise TypeError
  end.

(** [max(a, b)]: the first argument unless the second is greater. *)
Definition py_max (a b : pyval) : res pyval :=
  match py_gt b a with
  | Ok c => Ok (if c then b else a)
  | Raise e => Raise e
  end.

(** [min(a, b)]: the first argument unless the second is smaller. *)
Definition py_min (a b : pyval) : res pyval :=
  match py_lt b a with
  | Ok c => Ok (if c then b else a)
  | Raise e => Raise e
  end.

(** [x * n] for a float [x] and a small int literal [n]. *)
Definition float_mul_int (x : float) (n : Z) : res float :=
  match int_to_double n with
  | Some f => Ok (x * f)%float
  | None => Raise OverflowError
  end.

(** [x / y] on floats. *)
Definition float_truediv (x y : float) : res float :=
  if (y =? 0)%float then Raise ZeroDivisionError else Ok (x / y)%float.

End PyNum.
Import PyNum.

(** ** The calibration data *)

(** [histo_alpha], [histo_value] and [alpha_max] are locals of [Age] that are
    bound to literals on every call; they are constants here. *)

(** The best observed histogram of the IR SED slope alpha. *)
Definition histo_alpha : list float :=
  [
   (-3.028380897); (-2.946254679); (-2.864128461); (-2.782002244); 
   (-2.699876026); (-2.617749808); (-2.53562359); (-2.453497372); 
   (-2.371371154); (-2.289244937); (-2.207118719); (-2.124992501); 
   (-2.042866283); (-1.960740065); (-1.878613848); (-1.79648763); 
   (-1.714361412); (-1.632235194); (-1.550108976); (-1.467982758); 
   (-1.385856541); (-1.303730323); (-1.221604105); (-1.139477887); 
   (-1.057351669); (-0.975225452); (-0.893099234); (-0.810973016); 
   (-0.728846798); (-0.64672058); (-0.564594362); (-0.482468145); 
   (-0.400341927); (-0.318215709); (-0.236089491); (-0.153963273); 
   (-0.071837056); 0.010289162; 0.09241538; 0.174541598; 0.256667816; 
   0.338794034; 0.420920251; 0.503046469; 0.585172687; 0.667298905; 
   0.749425123; 0.831551341; 0.913677558; 0.995803776; 1.077929994; 
   1.160056212; 1.24218243; 1.324308647; 1.406434865; 1.488561083; 
   1.570687301; 1.652813519; 1.734939737; 1.817065954; 1.899192172; 
   1.98131839; 2.063444608; 2.145570826; 2.227697043; 2.309823261; 
   2.391949479; 2.474075697; 2.556201915; 2.638328133; 2.72045435; 
   2.802580568; 2.884706786; 2.966833004; 3.048959222; 3.131085439; 
   3.213211657; 3.295337875; 3.377464093; 3.459590311; 3.541716529; 
   3.623842746; 3.705968964; 3.788095182; 3.8702214; 3.952347618; 4.034473836; 
   4.116600053; 4.198726271; 4.280852489; 4.362978707; 4.445104925; 
   4.527231142; 4.60935736; 4.691483578; 4.773609796
  ]%float.

Definition histo_value : list float :=
  [
   0.002449976; 0.004899952; 0.015442271; 0.100419626; 0.030194253; 
   0.06643178; 0.079866664; 0.08716341; 0.067915637; 0.056719817; 0.082373265; 
   0.089398067; 0.053945029; 0.060853461; 0.044014358; 0.06509256; 0.16317058; 
   0.101891253; 0.125773205; 0.219043265; 0.432833895; 0.449567946; 
   0.544663194; 0.886259852; 0.989236206; 0.862846181; 0.783440641; 
   0.583325985; 0.538039262; 0.555406536; 0.344999831; 0.262820176; 
   0.260577964; 0.19849541; 0.168269814; 0.165631222; 0.201100745; 
   0.192358644; 0.186583574; 0.141933609; 0.161162725; 0.08387892; 
   0.117124554; 0.126359873; 0.147117747; 0.098773219; 0.137713416; 
   0.111048893; 0.125858942; 0.057581656; 0.067554811; 0.078102251; 
   0.075011976; 0.043499395; 0.048333773; 0.054341961; 0.036089777; 
   0.072085757; 0.080411503; 0.019417482; 0.030378068; 0.025724051; 
   0.018948669; 0.02000099; 0.000978612; 0.037802944; 0.003579561; 
   0.004455848; 0.003073425; 0.019818801; 0.001011327; 0.0; 0.002615764; 0.0; 
   0.001073755; 0.0; 0.0; 0.0; 0.0; 0.0; 0.0; 0.0; 0.0; 0.0; 0.0; 0.0; 0.0; 
   0.0; 0.0; 0.0; 0.0; 0.0; 0.0; 0.0; 0.0; 0.0
  ]%float.

(** The upper bound of the integral, [alpha_max] in [Age]. *)
Definition alpha_max : float := 4.814672904812319%float.

(** [max(l)] for a non-empty list of floats. *)
Definition float_list_max (l : list float) : option float :=
  match l with
  | [] => None
  | x :: r => Some (fold_left (fun m y => if (m <? y)%float then y else m) r x)
  end.

(** Adjacent elements are in strictly increasing order. *)
Fixpoint strictly_increasing (l : list float) : bool :=
  match l with
  | x :: (y :: _) as r => (x <? y)%float && strictly_increasing r
  | _ => true
  end.

Definition nonnegative (x : float) : bool := (0 <=? x)%float.

(** ** The values of numbers, for the order of binary64 *)

Module FloatOrder.

(** [2 ^ 1074]: every finite binary64 number is an integer multiple of
    [2 ^ -1074]. *)
Definition grid : Z := 2 ^ 1074.

(** A finite number times [grid], an integer for every valid float. *)
Definition scale (s : bool) (m : positive) (e : Z) : Z :=
  signed s m * 2 ^ (e + 1074).

(** Extended values, in units of [2 ^ -1074]. *)
Inductive ext : Type := NegInf | Fin (z : Z) | PosInf | NaN.

Definition ext_lt (a b : ext) : bool :=
  match a, b with
  | Fin x, Fin y => x <? y
  | NegInf, (Fin _ | PosInf) => true
  | Fin _, PosInf => true
  | _, _ => false
  end.

Definition ext_le (a b : ext) : bool :=
  match a, b with
  | Fin x, Fin y => x <=? y
  | NegInf, (NegInf | Fin _ | PosInf) => true
  | (Fin _ | PosInf), PosInf => true
  | _, _ => false
  end.

Definition SFvalue (x : spec_float) : ext :=
  match x with
  | S754_nan => NaN
  | S754_infinity s => if s then NegInf else PosInf
  | S754_zero _ => Fin 0
  | S754_finite s m e => Fin (scale s m e)
  end.

Definition value (x : num) : ext :=
  match x with
  | NInt n => Fin (n * grid)
  | NFloat f => SFvalue (Prim2SF f)
  end.

End FloatOrder.

(** ** Standard output and exceptions *)

(** What has been printed: one entry per [print] call, oldest first. *)
Definition stdout : Type := list string.

(** A computation reads and extends standard output and returns a value or
    raises. *)
Definition M (A : Type) : Type := stdout -> res A * stdout.

Definition ret {A : Type} (a : A) : M A := fun out => (Ok a, out).

Definition bind {A B : Type} (m : M A) (k : A -> M B) : M B :=
  fun out =>
    match m out with
    | (Ok a, out') => k a out'
    | (Raise e, out') => (Raise e, out')
    end.

(** A pure operation that may raise. *)
Definition lift {A : Type} (r : res A) : M A := fun out => (r, out).

(** [print(s)]: the text and the newline [print] ends it with. *)
Definition nl : string := String (ascii_of_nat 10) EmptyString.
Definition esc : string := String (ascii_of_nat 27) EmptyString.

Definition print (s : string) : M unit :=
  fun out => (Ok tt, out ++ [(s ++ nl)%string]).

Declare Scope py_scope.
Delimit Scope py_scope with py.
Notation "x <- m ;; k" := (bind m (fun x => k))
  (at level 61, m at next level, right associativity) : py_scope.
Notation "m ;;; k" := (bind m (fun _ => k))
  (at level 61, right associativity) : py_scope.

(** ** The libraries [Age] calls *)

(** [scipy.interpolate] and the formatting of numbers are not part of the
    module: they are an interface. *)
Class Library : Type := {
  (** the spline representation [(t, c, k)] that [splrep] returns *)
  tck : Type;
  (** [splrep(x, y, k=k, s=s)] *)
  splrep : list float -> list float -> Z -> float -> tck;
  (** [splint(a, b, tck)], on C doubles *)
  splint : float -> float -> tck -> float;
  (** [format(v, '')], the text an f-string puts for [{v}] *)
  format : pyval -> string
}.

(** An instance to run [Age] on concrete inputs: the spline is the constant
    function 1, whose integral from [a] to [b] is [b - a]; numbers are not
    spelled out. *)
Module Flat.
#[local] Instance lib : Library := {|
  tck := unit;
  splrep := fun _ _ _ _ => tt;
  splint := fun a b _ => (b - a)%float;
  format := fun v =>
    match v with
    | PyInt _ => "<int>"%string
    | PyFloat _ => "<float>"%string
    | _ => "<object>"%string
    end
|}.
End Flat.

(** An instance whose spline is the constant function 0: every integral is
    zero. *)
Module Null.
#[local] Instance lib : Library := {|
  tck := unit;
  splrep := fun _ _ _ _ => tt;
  splint := fun _ _ _ => 0%float;
  format := fun _ => "<object>"%string
|}.
End Null.

(** ** The function [Age] *)

Section Age.

Context {L : Library}.

(** [splint(a, b, tck)] on values: the bounds are converted to doubles. *)
Definition call_splint (a b : pyval) (t : tck) : M float :=
  (a' <- lift (to_double a) ;;
   b' <- lift (to_double b) ;;
   ret (splint a' b' t))%py.

Definition too_small (v : pyval) : string :=
  (nl ++ esc ++ "[31mWarning! Too small input alpha value (" ++ format v
      ++ ") is forced to the allowed lower limit of -2." ++ esc ++ "[0m"
      ++ nl)%string.

Definition too_large (v : pyval) : string :=
  (nl ++ esc ++ "[31mWarning! Too large input alpha value (" ++ format v
      ++ ") is forced to the allowed upper limit of 4.8." ++ esc ++ "[0m"
      ++ nl)%string.

(** The [for] loop of the sequence branch: [items] are the elements still
    to come, [Age] the list built so far. *)
Fixpoint Age_for (tck_36 : tck) (items : list pyval) (Age : list pyval)
  : M (list pyval) :=
  match items with
  | [] => ret Age
  | i :: rest =>
      (lo <- lift (py_lt i (PyInt (-2))) ;;
       (if lo : bool then print (too_small i)
        else
          hi <- lift (py_gt i (PyFloat 4.8)) ;;
          if hi : bool then print (too_large i) else ret tt) ;;;
       m <- lift (py_max i (PyInt (-2))) ;;
       a <- lift (py_min m (PyFloat 4.8)) ;;
       n <- call_splint (PyFloat alpha_max) a tck_36 ;;
       n2 <- lift (float_mul_int n 2) ;;
       d <- call_splint (PyFloat (-0.3)) (PyFloat (-1.6)) tck_36 ;;
       q <- lift (float_truediv n2 d) ;;
       Age_for tck_36 rest (Age ++ [PyFloat q]))%py
  end.

(** [iter(v)]: the elements of a list; other values here are not
    iterable. *)
Definition py_iter (v : pyval) : res (list pyval) :=
  match v with
  | PyList l => Ok l
  | _ => Raise TypeError
  end.

(** [Age(alpha)] *)
Definition Age (alpha : pyval) : M pyval :=
  (* the fit: a smoothed cubic spline through the histogram *)
  let tck_36 := splrep histo_alpha histo_value 3 0.08%float in
  if type_in (type alpha) [TInt; TFloat] then
    (lo <- lift (py_lt alpha (PyInt (-2))) ;;
     (if lo : bool then print (too_small alpha)
      else
        hi <- lift (py_gt alpha (PyFloat 4.8)) ;;
        if hi : bool then print (too_large alpha) else ret tt) ;;;
     m <- lift (py_max alpha (PyInt (-2))) ;;
     alpha <- lift (py_min m (PyFloat 4.8)) ;;
     n <- call_splint (PyFloat alpha_max) alpha tck_36 ;;
     n2 <- lift (float_mul_int n 2) ;;
     d <- call_splint (PyFloat (-0.3)) (PyFloat (-1.6)) tck_36 ;;
     q <- lift (float_truediv n2 d) ;;
     ret (PyFloat q))%py
  else
    (items <- lift (py_iter alpha) ;;
     l <- Age_for tck_36 items [] ;;
     ret (PyList l))%py.

(** A call [Age()] or [Age(x)]: the parameter defaults to [0.0]. *)
Definition Age_call (arg : option pyval) : M pyval :=
  match arg with
  | Some alpha => Age alpha
  | None => Age (PyFloat 0.0)
  end.

(** *** Derived forms, for the statements below *)

(** The int or float with the numeric content [x]. *)
Definition of_num (x : num) : pyval :=
  match x with
  | NInt n => PyInt n
  | NFloat f => PyFloat f
  end.

(** [type(v) in [int, float]]: the values the scalar branch takes. *)
Definition is_real (v : pyval) : bool := type_in (type v) [TInt; TFloat].


(** The value of [splint(alpha_max, a, t)*2/splint(-0.3, -1.6, t)]. *)
Definition integral_ratio (t : tck) (a : pyval) : res pyval :=
  match to_double a with
  | Ok a' =>
      let n := splint alpha_max a' t in
      let d := splint (-0.3) (-1.6) t in
      if (d =? 0)%float then Raise ZeroDivisionError
      else Ok (PyFloat (n * 2 / d))
  | Raise e => Raise e
  end.

(** What [min(max(x, -2), 4.8)] is, by the two tests of the code. *)
Definition clamped (x : num) : num :=
  if num_lt x (NInt (-2)) then NInt (-2)
  else if num_lt (NFloat 4.8) x then NFloat 4.8
  else x.

(** What the two tests print for [x]. *)
Definition warnings (x : num) : list string :=
  if num_lt x (NInt (-2)) then [(too_small (of_num x) ++ nl)%string]
  else if num_lt (NFloat 4.8) x then [(too_large (of_num x) ++ nl)%string]
  else [].


End Age.

(** ** Elements of a sequence *)

Section Elements.

Context {L : Library}.

(** The int or float with the numeric content of [v] ([True] is [1]); [v]
    itself when it is not a number. *)
Definition real_of (v : pyval) : pyval :=
  match as_num v with
  | Some x => of_num x
  | None => v
  end.



(** [type(v) is float] *)
Definition is_float (v : pyval) : bool :=
  match v with
  | PyFloat _ => true
  | _ => false
  end.

(** [v] is an int, a float, or an instance of a subclass of one. *)
Definition is_number (v : pyval) : bool :=
  match as_num v with
  | Some _ => true
  | None => false
  end.

(** What the two tests of the loop print for the element [i]: the warning
    with [i] in it, or nothing. *)
Definition element_lines (i : pyval) : list string :=
  match as_num i with
  | Some x =>
      if num_lt x (NInt (-2)) then [(too_small i ++ nl)%string]
      else if num_lt (NFloat 4.8) x then [(too_large i ++ nl)%string]
      else []
  | None => []
  end.

(** One turn of the loop on the element [i], in closed form: the value it
    appends or the exception it raises, and the lines it prints. *)
Definition turn (t : tck) (i : pyval) : res pyval * list string :=
  (match as_num i with
   | Some x => integral_ratio t (of_num (clamped x))
   | None => Raise TypeError
   end,
   element_lines i).

End Elements.


(** * Properties *)

(** ** The order of binary64 numbers *)

Module FloatOrderFacts.
Import FloatOrder.

Lemma grid_pos : 0 < grid.
Proof. reflexivity. Qed.

Lemma digits2_pos_bounds (m : positive) :
  2 ^ (Z.pos (digits2_pos m) - 1) <= Z.pos m < 2 ^ Z.pos (digits2_pos m).
Proof.
  induction m as [m IH | m IH |]; cbn [digits2_pos].
  - rewrite Pos2Z.inj_succ.
    replace (Z.succ (Z.pos (digits2_pos m)) - 1) with
      (Z.succ (Z.pos (digits2_pos m) - 1)) by lia.
    rewrite !Z.pow_succ_r by lia. lia.
  - rewrite Pos2Z.inj_succ.
    replace (Z.succ (Z.pos (digits2_pos m)) - 1) with
      (Z.succ (Z.pos (digits2_pos m) - 1)) by lia.
    rewrite !Z.pow_succ_r by lia. lia.
  - cbn. lia.
Qed.

(** What validity says of a finite float: the exponent range, and a
    mantissa of 53 bits unless the number is subnormal. *)
Lemma valid_finite_bounds s m e :
  valid_binary (S754_finite s m e) = true ->
  -1074 <= e <= 971 /\ Z.pos m < 2 ^ 53 /\ (e = -1074 \/ 2 ^ 52 <= Z.pos m).
Proof.
  unfold SpecFloat.valid_binary, bounded, canonical_mantissa, fexp,
    SpecFloat.emin, prec, emax.
  intros H. apply andb_true_iff in H. destruct H as [Hc He].
  apply Z.eqb_eq in Hc. apply Z.leb_le in He.
  pose proof (digits2_pos_bounds m) as [Hlo Hhi].
  set (d := Z.pos (digits2_pos m)) in *.
  assert (Hd : 0 < d <= 53) by lia.
  split; [lia|]. split.
  - apply Z.lt_le_trans with (2 ^ d); [exact Hhi|].
    apply Z.pow_le_mono_r; lia.
  - destruct (Z.eq_dec e (-1074)) as [->|Hne]; [now left|right].
    assert (d = 53) as Hd53 by lia.
    rewrite Hd53 in Hlo. exact Hlo.
Qed.

Lemma pow2_pos k : 0 <= k -> 0 < 2 ^ k.
Proof. intros; apply Z.pow_pos_nonneg; lia. Qed.

Lemma pow2_step j k : 0 <= j < k -> 2 * 2 ^ j <= 2 ^ k.
Proof.
  intros H. rewrite <- Z.pow_succ_r by lia.
  apply Z.pow_le_mono_r; lia.
Qed.

Lemma mul_compare_r n m p : 0 < p -> (n * p ?= m * p) = (n ?= m).
Proof. intros H. symmetry. apply Zmult_compare_compat_r. lia. Qed.

(** Between numbers of one sign, the exponent decides first. *)
Lemma scale_lt_exp m1 e1 m2 e2 :
  valid_binary (S754_finite false m1 e1) = true ->
  valid_binary (S754_finite false m2 e2) = true ->
  e1 < e2 ->
  Z.pos m1 * 2 ^ (e1 + 1074) < Z.pos m2 * 2 ^ (e2 + 1074).
Proof.
  intros V1 V2 He.
  apply valid_finite_bounds in V1, V2.
  destruct V1 as (R1 & U1 & _), V2 as (R2 & _ & [E2 | L2]); [lia|].
  pose proof (pow2_step (e1 + 1074) (e2 + 1074) ltac:(lia)) as Hs.
  pose proof (pow2_pos (e1 + 1074) ltac:(lia)) as Hp.
  change (2 ^ 53) with 9007199254740992 in U1.
  change (2 ^ 52) with 4503599627370496 in L2.
  nia.
Qed.

(** The comparison of two finite floats is the comparison of their
    values. *)
Lemma SFcompare_finite s1 m1 e1 s2 m2 e2 :
  valid_binary (S754_finite s1 m1 e1) = true ->
  valid_binary (S754_finite s2 m2 e2) = true ->
  SFcompare (S754_finite s1 m1 e1) (S754_finite s2 m2 e2)
  = Some (scale s1 m1 e1 ?= scale s2 m2 e2).
Proof.
  intros V1 V2.
  pose proof (valid_finite_bounds _ _ _ V1) as (R1 & _ & _).
  pose proof (valid_finite_bounds _ _ _ V2) as (R2 & _ & _).
  pose proof (pow2_pos (e1 + 1074) ltac:(lia)) as P1.
  pose proof (pow2_pos (e2 + 1074) ltac:(lia)) as P2.
  unfold SFcompare, scale. f_equal.
  destruct s1, s2; cbn [signed].
  - (* both negative *)
    destruct (Z.compare_spec e1 e2) as [-> | Hlt | Hgt].
    + rewrite mul_compare_r by exact P2. reflexivity.
    + symmetry. apply Z.compare_gt_iff.
      pose proof (scale_lt_exp m1 e1 m2 e2 V1 V2 Hlt). lia.
    + symmetry. apply Z.compare_lt_iff.
      pose proof (scale_lt_exp m2 e2 m1 e1 V2 V1 ltac:(lia)). lia.
  - symmetry. apply Z.compare_lt_iff. nia.
  - symmetry. apply Z.compare_gt_iff. nia.
  - (* both positive *)
    destruct (Z.compare_spec e1 e2) as [-> | Hlt | Hgt].
    + rewrite mul_compare_r by exact P2. reflexivity.
    + symmetry. apply Z.compare_lt_iff.
      apply (scale_lt_exp m1 e1 m2 e2 V1 V2 Hlt).
    + symmetry. apply Z.compare_gt_iff.
      apply (scale_lt_exp m2 e2 m1 e1 V2 V1). lia.
Qed.

Lemma scale_sign (s : bool) m e :
  -1074 <= e -> if s then scale s m e < 0 else 0 < scale s m e.
Proof.
  intros He. pose proof (pow2_pos (e + 1074) ltac:(lia)).
  unfold scale. destruct s; cbn [signed]; nia.
Qed.

(** [SFcompare] orders valid floats by their values. *)
Lemma SFcompare_value x y :
  valid_binary x = true -> valid_binary y = true ->
  (SFltb x y = ext_lt (SFvalue x) (SFvalue y)) /\
  (SFleb x y = ext_le (SFvalue x) (SFvalue y)).
Proof.
  intros Vx Vy. unfold SFltb, SFleb.
  destruct x as [sx | sx | | sx mx ex], y as [sy | sy | | sy my ey];
    try (destruct sx); try (destruct sy); try (split; reflexivity).
  all: try (pose proof (valid_finite_bounds _ _ _ Vx) as (Rx & _ & _));
       try (pose proof (valid_finite_bounds _ _ _ Vy) as (Ry & _ & _)).
  all: try rewrite (SFcompare_finite _ _ _ _ _ _ Vx Vy).
  all: cbn [SFcompare SFvalue ext_lt ext_le].
  all: repeat match goal with
         | |- context [scale ?s ?m ?e] =>
             lazymatch goal with
             | _ : context [scale s m e] |- _ => fail
             | _ => pose proof (scale_sign s m e ltac:(lia))
             end
         end; cbn beta iota in *.
  all: unfold Z.ltb, Z.leb.
  all: try (split;
            repeat match goal with
              | |- context [?a ?= ?b] =>
                  destruct (Z.compare_spec a b); try lia
              end; reflexivity).
Qed.


(** The exact comparison of an int with a valid float, on the same
    scale. *)
Lemma Zcompare_float_value n x :
  valid_binary x = true ->
  match Zcompare_float n x with
  | Some c =>
      (ext_lt (Fin (n * grid)) (SFvalue x) = match c with Lt => true | _ => false end) /\
      (ext_lt (SFvalue x) (Fin (n * grid)) = match c with Gt => true | _ => false end) /\
      (ext_le (Fin (n * grid)) (SFvalue x) = match c with Gt => false | _ => true end) /\
      (ext_le (SFvalue x) (Fin (n * grid)) = match c with Lt => false | _ => true end) /\
      (c = Eq <-> SFvalue x = Fin (n * grid))
  | None => x = S754_nan
  end.
Proof.
  intros V. pose proof grid_pos as G.
  destruct x as [s | s | | s m e]; cbn [Zcompare_float SFvalue ext_lt ext_le].
  - unfold Z.ltb, Z.leb.
    rewrite <- (mul_compare_r n 0 grid G), (Z.compare_antisym (n * grid) 0).
    change (0 * grid) with 0.
    destruct (Z.compare_spec (n * grid) 0) as [E | E | E]; cbn [CompOpp];
      repeat split; try reflexivity; try discriminate; intros;
      try (f_equal; lia).
    all: match goal with
         | H : Fin _ = Fin _ |- _ => injection H; intros; exfalso; lia
         end.
  - destruct s; repeat split; try reflexivity; discriminate.
  - reflexivity.
  - pose proof (valid_finite_bounds _ _ _ V) as (R & _ & _).
    assert (E : (if 0 <=? e then n ?= signed s m * 2 ^ e
                 else n * 2 ^ (- e) ?= signed s m)
                = (n * grid ?= scale s m e)).
    { unfold scale, grid. destruct (Z.leb_spec 0 e) as [He | He].
      - rewrite (Z.pow_add_r 2 e 1074) by lia.
        rewrite Z.mul_assoc.
        rewrite mul_compare_r by (apply pow2_pos; lia). reflexivity.
      - replace (2 ^ 1074) with (2 ^ (- e) * 2 ^ (e + 1074)).
        + rewrite Z.mul_assoc.
          rewrite mul_compare_r by (apply pow2_pos; lia). reflexivity.
        + rewrite <- Z.pow_add_r by lia. f_equal. lia. }
    rewrite E. unfold Z.ltb, Z.leb.
    rewrite (Z.compare_antisym (n * grid) (scale s m e)).
    destruct (Z.compare_spec (n * grid) (scale s m e)) as [E' | E' | E'];
      cbn [CompOpp]; repeat split; try reflexivity; try discriminate;
      intros; try (f_equal; lia).
    all: match goal with
         | H : Fin _ = Fin _ |- _ => injection H; intros; exfalso; lia
         end.
Qed.

End FloatOrderFacts.

(** ** Python comparisons are the order of the values *)

Module NumFacts.
Import FloatOrder FloatOrderFacts.

Lemma num_lt_value x y : num_lt x y = ext_lt (value x) (value y).
Proof.
  destruct x as [a | a], y as [b | b]; cbn [num_lt value].
  - cbn [ext_lt]. unfold Z.ltb.
    now rewrite (mul_compare_r a b grid grid_pos).
  - pose proof (Zcompare_float_value a _ (Prim2SF_valid b)) as H.
    destruct (Zcompare_float a (Prim2SF b)) as [c |].
    + destruct H as (H & _). rewrite H. reflexivity.
    + rewrite H. reflexivity.
  - pose proof (Zcompare_float_value b _ (Prim2SF_valid a)) as H.
    destruct (Zcompare_float b (Prim2SF a)) as [c |].
    + destruct H as (_ & H & _). rewrite H. reflexivity.
    + rewrite H. reflexivity.
  - rewrite ltb_spec.
    apply (SFcompare_value _ _ (Prim2SF_valid a) (Prim2SF_valid b)).
Qed.

Lemma num_le_value x y : num_le x y = ext_le (value x) (value y).
Proof.
  destruct x as [a | a], y as [b | b]; cbn [num_le value].
  - cbn [ext_le]. unfold Z.leb.
    now rewrite (mul_compare_r a b grid grid_pos).
  - pose proof (Zcompare_float_value a _ (Prim2SF_valid b)) as H.
    destruct (Zcompare_float a (Prim2SF b)) as [c |].
    + destruct H as (_ & _ & H & _). rewrite H. now destruct c.
    + rewrite H. reflexivity.
  - pose proof (Zcompare_float_value b _ (Prim2SF_valid a)) as H.
    destruct (Zcompare_float b (Prim2SF a)) as [c |].
    + destruct H as (_ & _ & _ & H & _). rewrite H. now destruct c.
    + rewrite H. reflexivity.
  - rewrite leb_spec.
    apply (SFcompare_value _ _ (Prim2SF_valid a) (Prim2SF_valid b)).
Qed.


Lemma ext_le_not_lt a b : ext_le a b = true -> ext_lt b a = false.
Proof.
  destruct a, b; cbn; try reflexivity; try discriminate.
  intros H. apply Z.leb_le in H. apply Z.ltb_ge. exact H.
Qed.

(** The value of the float [-2.0] is that of the int [-2]. *)
Lemma value_m2 : value (NFloat (-2)) = value (NInt (-2)).
Proof. vm_compute. reflexivity. Qed.

(** [4.8] lies strictly between 4 and 5. *)
Lemma value_48 :
  exists z, value (NFloat 4.8) = Fin z /\ 4 * grid < z < 5 * grid.
Proof. eexists. split; [vm_compute; reflexivity | vm_compute; auto]. Qed.


(** In the range, neither test of the code fires. *)
Lemma in_range_tests x :
  num_le (NFloat (-2)) x = true -> num_le x (NFloat 4.8) = true ->
  num_lt x (NInt (-2)) = false /\ num_lt (NFloat 4.8) x = false.
Proof.
  rewrite !num_le_value, !num_lt_value, value_m2. intros H1 H2.
  split; now apply ext_le_not_lt.
Qed.


(** The tests on an int. *)
Lemma int_tests n :
  num_lt (NInt n) (NInt (-2)) = (n <? -2) /\
  num_lt (NFloat 4.8) (NInt n) = (5 <=? n).
Proof.
  split; [reflexivity|].
  rewrite num_lt_value. destruct value_48 as (z & -> & Hz).
  pose proof grid_pos as G. cbn [value ext_lt].
  destruct (Z.leb_spec 5 n); [apply Z.ltb_lt | apply Z.ltb_ge]; nia.
Qed.

(** A clamped number is [-2], [4.8], or the number itself, within the
    range. *)
Lemma to_double_clamped x :
  exists a, to_double (of_num (clamped x)) = Ok a.
Proof.
  unfold clamped.
  destruct (num_lt x (NInt (-2))) eqn:Hlo; [eexists; vm_compute; reflexivity|].
  destruct (num_lt (NFloat 4.8) x) eqn:Hhi; [eexists; reflexivity|].
  destruct x as [n | f]; [|eexists; reflexivity].
  destruct (int_tests n) as [E1 E2]. rewrite E1 in Hlo. rewrite E2 in Hhi.
  apply Z.ltb_ge in Hlo. apply Z.leb_gt in Hhi.
  assert (n = -2 \/ n = -1 \/ n = 0 \/ n = 1 \/ n = 2 \/ n = 3 \/ n = 4)
    as Hn by lia.
  destruct Hn as [-> | [-> | [-> | [-> | [-> | [-> | ->]]]]]];
    eexists; vm_compute; reflexivity.
Qed.

End NumFacts.

(** ** The body of [Age] *)

Section AgeFacts.

Context {L : Library}.
Import NumFacts.

Lemma as_num_of_num x : as_num (of_num x) = Some x.
Proof. now destruct x. Qed.

Lemma is_real_of_num x : is_real (of_num x) = true.
Proof. now destruct x. Qed.


Lemma int_to_double_2 : int_to_double 2 = Some 2%float.
Proof. vm_compute. reflexivity. Qed.

Lemma lt_48_m2 : num_lt (NFloat 4.8) (NInt (-2)) = false.
Proof. vm_compute. reflexivity. Qed.

(** The arithmetic that ends the body: the two integrals, the product and
    the quotient. *)
Lemma body_ratio {A : Type} (t : tck) (a : pyval) (k : pyval -> M A) out :
  (n <- call_splint (PyFloat alpha_max) a t ;;
   n2 <- lift (float_mul_int n 2) ;;
   d <- call_splint (PyFloat (-0.3)) (PyFloat (-1.6)) t ;;
   q <- lift (float_truediv n2 d) ;;
   k (PyFloat q))%py out
  = match integral_ratio t a with
    | Ok v => k v out
    | Raise e => (Raise e, out)
    end.
Proof.
  unfold integral_ratio, call_splint, bind, lift, ret, float_mul_int,
    float_truediv.
  rewrite int_to_double_2.
  change (to_double (PyFloat alpha_max)) with (Ok alpha_max).
  change (to_double (PyFloat (-0.3))) with (Ok (-0.3)%float).
  change (to_double (PyFloat (-1.6))) with (Ok (-1.6)%float).
  destruct (to_double a) as [a' | e]; [|reflexivity].
  cbv zeta.
  destruct (splint (-0.3) (-1.6) t =? 0)%float; reflexivity.
Qed.

(** The two tests and the clamp that open the body. *)
Lemma body_clamp {A : Type} (x : num) (k : pyval -> M A) out :
  (lo <- lift (py_lt (of_num x) (PyInt (-2))) ;;
   (if lo : bool then print (too_small (of_num x))
    else
      hi <- lift (py_gt (of_num x) (PyFloat 4.8)) ;;
      if hi : bool then print (too_large (of_num x)) else ret tt) ;;;
   m <- lift (py_max (of_num x) (PyInt (-2))) ;;
   a <- lift (py_min m (PyFloat 4.8)) ;;
   k a)%py out
  = k (of_num (clamped x)) (out ++ warnings x).
Proof.
  unfold clamped, warnings, py_max, py_min, py_lt, py_gt, num_gt.
  rewrite !as_num_of_num. cbn [as_num].
  unfold bind, lift, ret, print.
  destruct (num_lt x (NInt (-2))) eqn:Hlo.
  - cbn [as_num]. rewrite lt_48_m2. reflexivity.
  - rewrite as_num_of_num.
    destruct (num_lt (NFloat 4.8) x) eqn:Hhi;
      rewrite ?app_nil_r; reflexivity.
Qed.

(** A call on an int or a float. *)
Lemma Age_real x out :
  Age (of_num x) out
  = (integral_ratio (splrep histo_alpha histo_value 3 0.08)
       (of_num (clamped x)), out ++ warnings x).
Proof.
  unfold Age. change (type_in (type (of_num x)) [TInt; TFloat])
    with (is_real (of_num x)).
  rewrite is_real_of_num.
  rewrite (body_clamp x). cbv beta.
  rewrite (body_ratio _ _ ret). unfold ret.
  now destruct (integral_ratio _ _).
Qed.


(** *** Standard output is only appended to *)











(** *** Sequences of ints and floats *)






End AgeFacts.

(** ** The specification's claims about [Age] *)

Section Claims.

Context {L : Library}.
Import NumFacts.

(** The spline that every call fits. *)
Local Notation "'tck_36'" := (splrep histo_alpha histo_value 3 0.08%float).

(** C1.  For an int or float [alpha] with [-2.0 <= alpha <= 4.8], [Age]
    prints nothing and returns [n * 2 / d], where [n] is the integral of
    the spline (degree 3, smoothing factor 0.08, fitted to the histogram)
    from [alpha_max = 4.814672904812319] to [alpha] and [d] its integral
    from [-0.3] to [-1.6]; the division raises ZeroDivisionError when [d]
    is zero. *)
Theorem Age_in_range (x : num) (out : stdout) :
  num_le (NFloat (-2)) x = true ->
  num_le x (NFloat 4.8) = true ->
  exists a : float,
    to_double (of_num x) = Ok a /\
    Age (of_num x) out
    = (let n := splint 4.814672904812319 a tck_36 in
       let d := splint (-0.3) (-1.6) tck_36 in
       if (d =? 0)%float then Raise ZeroDivisionError
       else Ok (PyFloat (n * 2 / d)),
       out).
Proof.
  intros Hlo Hhi.
  destruct (in_range_tests x Hlo Hhi) as [T1 T2].
  pose proof (to_double_clamped x) as [a Ha].
  rewrite Age_real. unfold integral_ratio, warnings.
  unfold clamped in *. rewrite T1, T2 in *.
  exists a. split; [exact Ha|].
  rewrite Ha, app_nil_r. reflexivity.
Qed.



(** C7.  A call without argument is the call on [0.0], and prints
    nothing. *)
Theorem Age_default (out : stdout) :
  Age_call None out = Age_call (Some (PyFloat 0)) out /\
  snd (Age_call None out) = out.
Proof.
  split; [reflexivity|]. cbn [Age_call].
  rewrite (Age_real (NFloat 0)).
  change (warnings (NFloat 0)) with (@nil string).
  cbn [snd]. apply app_nil_r.
Qed.


(** C9.  On the empty sequence, [Age] returns the empty list and prints
    nothing. *)
Theorem Age_empty (out : stdout) :
  Age (PyList []) out = (Ok (PyList []), out).
Proof. reflexivity. Qed.


End Claims.

(** ** The calibration data *)

Section Calibration.

Lemma strictly_increasing_adjacent (l : list float) :
  strictly_increasing l = true ->
  forall i x y,
    nth_error l i = Some x -> nth_error l (S i) = Some y ->
    (x <? y)%float = true.
Proof.
  induction l as [| a [| b r] IH]; intros H i x y Hx Hy.
  - now destruct i.
  - destruct i as [| [| i]]; discriminate.
  - cbn [strictly_increasing] in H. apply andb_true_iff in H.
    destruct H as [Hab Hr]. destruct i as [| i].
    + cbn in Hx, Hy. now injection Hx as <-; injection Hy as <-.
    + apply (IH Hr i x y); assumption.
Qed.

(** C3, as stated, fails: the largest bin centre is not [alpha_max]. *)
Lemma alpha_max_is_not_the_largest_bin :
  float_list_max histo_alpha <> Some alpha_max.
Proof.
  intros H.
  pose proof (f_equal (fun o => match o with
                                | Some x => (x <? 4.8)%float
                                | None => false
                                end) H) as H'.
  vm_compute in H'. discriminate H'.
Qed.

(** C3, amended.  The largest bin centre is 4.773609796, the last one, and
    [alpha_max] is strictly greater than every bin centre: it is the upper
    edge of the last bin, half a bin width above its centre. *)
Theorem alpha_max_above_bins :
  float_list_max histo_alpha = Some 4.773609796%float /\
  last histo_alpha 0%float = 4.773609796%float /\
  Forall (fun x => (x <? alpha_max)%float = true) histo_alpha /\
  (let hi := nth 95 histo_alpha 0%float in
   let width := (hi - nth 94 histo_alpha 0)%float in
   (abs (alpha_max - (hi + width / 2)) <? 1e-9)%float = true).
Proof.
  split; [vm_compute; reflexivity|].
  split; [vm_compute; reflexivity|].
  split; [|vm_compute; reflexivity].
  apply Forall_forall. apply forallb_forall. vm_compute. reflexivity.
Qed.

(** C4, as stated, fails: the sequences do not have 97 elements. *)
Lemma histogram_has_not_97_bins :
  ~ (List.length histo_alpha = 97%nat /\
     List.length histo_value = 97%nat /\
     (forall i x y,
        nth_error histo_alpha i = Some x ->
        nth_error histo_alpha (S i) = Some y -> (x <? y)%float = true) /\
     Forall (fun v => (0 <=? v)%float = true) histo_value).
Proof. intros [H _]. vm_compute in H. discriminate. Qed.

(** C4, amended.  [histo_alpha] and [histo_value] have 96 elements each;
    [histo_alpha] is strictly increasing; no element of [histo_value] is
    negative. *)
Theorem histogram_shape :
  List.length histo_alpha = 96%nat /\
  List.length histo_value = 96%nat /\
  (forall i x y,
     nth_error histo_alpha i = Some x ->
     nth_error histo_alpha (S i) = Some y -> (x <? y)%float = true) /\
  Forall (fun v => (0 <=? v)%float = true) histo_value.
Proof.
  split; [reflexivity|]. split; [reflexivity|]. split.
  - apply strictly_increasing_adjacent. vm_compute. reflexivity.
  - apply Forall_forall.
    apply (proj1 (forallb_forall nonnegative histo_value)).
    vm_compute. reflexivity.
Qed.

End Calibration.

(** ** The loop, element by element *)

Section LoopFacts.

Context {L : Library}.
Import NumFacts.

Lemma integral_ratio_num t a x :
  as_num a = Some x -> integral_ratio t a = integral_ratio t (of_num x).
Proof.
  intros E. unfold integral_ratio, to_double.
  now rewrite E, as_num_of_num.
Qed.

(** The two tests and the clamp on any number. *)
Lemma body_clamp_num {A : Type} (i : pyval) (x : num) (k : pyval -> M A) out :
  as_num i = Some x ->
  (lo <- lift (py_lt i (PyInt (-2))) ;;
   (if lo : bool then print (too_small i)
    else
      hi <- lift (py_gt i (PyFloat 4.8)) ;;
      if hi : bool then print (too_large i) else ret tt) ;;;
   m <- lift (py_max i (PyInt (-2))) ;;
   a <- lift (py_min m (PyFloat 4.8)) ;;
   k a)%py out
  = k (if num_lt x (NInt (-2)) then PyInt (-2)
       else if num_lt (NFloat 4.8) x then PyFloat 4.8
       else i)
      (out ++ (if num_lt x (NInt (-2)) then [(too_small i ++ nl)%string]
               else if num_lt (NFloat 4.8) x then [(too_large i ++ nl)%string]
               else [])).
Proof.
  intros E.
  unfold py_max, py_min, py_lt, py_gt, num_gt.
  rewrite !E. cbn [as_num].
  unfold bind, lift, ret, print.
  destruct (num_lt x (NInt (-2))) eqn:Hlo.
  - cbn [as_num]. rewrite lt_48_m2. reflexivity.
  - rewrite E.
    destruct (num_lt (NFloat 4.8) x) eqn:Hhi;
      rewrite ?app_nil_r; reflexivity.
Qed.

(** One turn of the loop is [turn]. *)
Lemma Age_for_turn t i rest acc out :
  Age_for t (i :: rest) acc out
  = match turn t i with
    | (Ok v, w) => Age_for t rest (acc ++ [v]) (out ++ w)
    | (Raise e, w) => (Raise e, out ++ w)
    end.
Proof.
  unfold turn, element_lines. cbn [Age_for].
  destruct (as_num i) as [x |] eqn:E.
  - rewrite (body_clamp_num i x _ out E). cbv beta.
    rewrite (body_ratio _ _ (fun v => Age_for t rest (acc ++ [v]))).
    unfold clamped.
    destruct (num_lt x (NInt (-2))); [reflexivity|].
    destruct (num_lt (NFloat 4.8) x); [reflexivity|].
    now rewrite (integral_ratio_num t i x E).
  - unfold py_lt. rewrite E. unfold bind, lift. now rewrite app_nil_r.
Qed.

(** The list built so far is only extended. *)
Lemma Age_for_acc t l : forall acc out,
  Age_for t l acc out
  = match Age_for t l [] out with
    | (Ok vs, o) => (Ok (acc ++ vs), o)
    | (Raise e, o) => (Raise e, o)
    end.
Proof.
  induction l as [| i rest IH]; intros acc out.
  - cbn. unfold ret. now rewrite app_nil_r.
  - rewrite !Age_for_turn. destruct (turn t i) as [[v | e] w]; [|reflexivity].
    rewrite (IH (acc ++ [v])), (IH ([] ++ [v])).
    destruct (Age_for t rest [] (out ++ w)) as [[vs | e] o]; [|reflexivity].
    now rewrite <- app_assoc.
Qed.

Lemma Age_for_app t l1 l2 : forall acc out,
  Age_for t (l1 ++ l2) acc out
  = match Age_for t l1 acc out with
    | (Ok acc', o) => Age_for t l2 acc' o
    | (Raise e, o) => (Raise e, o)
    end.
Proof.
  induction l1 as [| i rest IH]; intros acc out; [reflexivity|].
  cbn [app]. rewrite !Age_for_turn.
  destruct (turn t i) as [[v | e] w]; [apply IH | reflexivity].
Qed.

(** A call on a list is the loop from the empty list. *)
Lemma Age_PyList l out :
  Age (PyList l) out
  = match Age_for (splrep histo_alpha histo_value 3 0.08) l [] out with
    | (Ok vs, o) => (Ok (PyList vs), o)
    | (Raise e, o) => (Raise e, o)
    end.
Proof.
  unfold Age. cbn [type type_in existsb pytype_eqb orb]. cbv zeta.
  cbn [py_iter]. unfold bind, lift, ret.
  now destruct (Age_for _ l [] out) as [[vs | e] o].
Qed.

Lemma as_num_real_of v : as_num (real_of v) = as_num v.
Proof.
  unfold real_of. destruct (as_num v) as [x |] eqn:E; [|exact E].
  apply as_num_of_num.
Qed.

Lemma turn_real_of t v :
  fst (turn t (real_of v)) = fst (turn t v) /\
  List.length (snd (turn t (real_of v))) = List.length (snd (turn t v)).
Proof.
  unfold turn, element_lines. rewrite as_num_real_of.
  destruct (as_num v) as [x |]; [|now split].
  split; [reflexivity|]. cbn [snd].
  destruct (num_lt x (NInt (-2))); [reflexivity|].
  now destruct (num_lt (NFloat 4.8) x).
Qed.

Lemma Age_for_real_of t l : forall acc out out',
  fst (Age_for t l acc out) = fst (Age_for t (map real_of l) acc out').
Proof.
  induction l as [| i rest IH]; intros acc out out'; [reflexivity|].
  cbn [map]. rewrite !Age_for_turn.
  destruct (turn_real_of t i) as [E _]. revert E.
  destruct (turn t (real_of i)) as [[v' | e'] w'],
    (turn t i) as [[v | e] w]; cbn [fst]; intros E; try discriminate.
  - injection E as ->. apply IH.
  - now injection E as ->.
Qed.

(** The lines a run of the loop prints are those of its turns, up to the
    first exception. *)
Lemma Age_for_ok t l : forall acc out acc' out',
  Age_for t l acc out = (Ok acc', out') ->
  exists vs,
    acc' = acc ++ vs /\
    Forall2 (fun i v => fst (turn t i) = Ok v) l vs /\
    out' = out ++ flat_map element_lines l.
Proof.
  induction l as [| i rest IH]; intros acc out acc' out'.
  - cbn. unfold ret. intros [= <- <-]. exists [].
    rewrite !app_nil_r. split; [reflexivity|]. split; [constructor|reflexivity].
  - rewrite Age_for_turn.
    destruct (turn t i) as [[v | e] w] eqn:Et; [|discriminate].
    assert (Ew : element_lines i = w) by exact (f_equal snd Et).
    assert (Ev : fst (turn t i) = Ok v) by now rewrite Et.
    intros H. destruct (IH _ _ _ _ H) as (vs & -> & F & ->).
    exists (v :: vs). cbn [flat_map]. rewrite Ew.
    rewrite <- !app_assoc. split; [reflexivity|].
    split; [|reflexivity]. now constructor.
Qed.

Lemma turn_value_is_float t i v : fst (turn t i) = Ok v -> is_float v = true.
Proof.
  unfold turn. destruct (as_num i) as [x |]; [|discriminate].
  cbn [fst]. unfold integral_ratio.
  destruct (to_double _) as [a |]; [|discriminate].
  cbv zeta. destruct (_ =? _)%float; [discriminate|].
  now intros [= <-].
Qed.

Lemma turns_are_floats t l vs :
  Forall2 (fun i v => fst (turn t i) = Ok v) l vs ->
  forallb is_float vs = true.
Proof.
  induction 1 as [| i v l vs Hi _ IH]; [reflexivity|].
  cbn [forallb]. now rewrite (turn_value_is_float _ _ _ Hi), IH.
Qed.

Lemma turn_never_overflows t i : fst (turn t i) <> Raise OverflowError.
Proof.
  unfold turn. destruct (as_num i) as [x |]; [|discriminate].
  cbn [fst]. unfold integral_ratio.
  destruct (to_double_clamped x) as [a ->].
  cbv zeta. destruct (_ =? _)%float; discriminate.
Qed.


Lemma turn_zero_division t i :
  fst (turn t i) = Raise ZeroDivisionError ->
  (splint (-0.3) (-1.6) t =? 0)%float = true.
Proof.
  unfold turn. destruct (as_num i) as [x |]; [|discriminate].
  cbn [fst]. unfold integral_ratio.
  destruct (to_double_clamped x) as [a ->]. cbv zeta.
  now destruct (_ =? _)%float.
Qed.

Lemma turn_type_error t i :
  fst (turn t i) = Raise TypeError -> is_number i = false.
Proof.
  unfold turn, is_number. destruct (as_num i) as [x |]; [|reflexivity].
  cbn [fst]. unfold integral_ratio.
  destruct (to_double_clamped x) as [a ->]. cbv zeta.
  destruct (_ =? _)%float; discriminate.
Qed.

(** An exception of the loop is the exception of one of its turns. *)
Lemma Age_for_raise t l : forall acc out e,
  fst (Age_for t l acc out) = Raise e ->
  exists i, In i l /\ fst (turn t i) = Raise e.
Proof.
  induction l as [| i rest IH]; intros acc out e; [discriminate|].
  rewrite Age_for_turn. destruct (turn t i) as [[v | e'] w] eqn:Et.
  - intros H. destruct (IH _ _ _ H) as (j & Hj & Hr).
    exists j. split; [now right | exact Hr].
  - cbn [fst]. intros [= ->]. exists i. split; [now left|].
    now rewrite Et.
Qed.

End LoopFacts.

(** ** Further properties of [Age] *)

Section MoreProperties.

Context {L : Library}.
Import FloatOrder NumFacts.

Local Notation "'tck_36'" := (splrep histo_alpha histo_value 3 0.08%float).

Lemma value_nan f : is_nan f = true -> value (NFloat f) = NaN.
Proof. intros H. unfold value, Prim2SF. now rewrite H. Qed.




Lemma Age_for_never_overflows t l : forall acc out,
  fst (Age_for t l acc out) <> Raise OverflowError.
Proof.
  induction l as [| i rest IH]; intros acc out; [discriminate|].
  rewrite Age_for_turn. pose proof (turn_never_overflows t i) as H.
  destruct (turn t i) as [[v | e] w]; [apply IH|].
  cbn [fst] in *. congruence.
Qed.


(** X1.  In a sequence, an element counts by its numeric content: a bool
    gives the age of the int 0 or 1, an instance of a float subclass that of
    the float, and a call fails on one list exactly when it fails on the
    other. *)
Theorem Age_numeric_content (l : list pyval) (out : stdout) :
  fst (Age (PyList l) out) = fst (Age (PyList (map real_of l)) out).
Proof.
  rewrite !Age_PyList.
  pose proof (Age_for_real_of tck_36 l [] out out) as E.
  destruct (Age_for tck_36 l [] out) as [[vs | e] o],
    (Age_for tck_36 (map real_of l) [] out) as [[vs' | e'] o'];
    cbn [fst] in *; congruence.
Qed.


(** X3.  A NaN is not clamped and not warned about: both tests are false on
    it, and it goes to [splint] as the bound of the integral. *)
Theorem Age_nan (f : float) (out : stdout) :
  is_nan f = true ->
  Age (PyFloat f) out
  = (let n := splint alpha_max f tck_36 in
     let d := splint (-0.3) (-1.6) tck_36 in
     if (d =? 0)%float then Raise ZeroDivisionError
     else Ok (PyFloat (n * 2 / d)),
     out).
Proof.
  intros H. rewrite (Age_real (NFloat f)).
  unfold clamped, warnings. rewrite !num_lt_value, (value_nan f H).
  cbn [ext_lt]. destruct (value (NFloat 4.8)); cbn [ext_lt];
    now rewrite app_nil_r.
Qed.



(** X6.  A call on a concatenation is the call on the first part followed by
    the call on the second: the results are concatenated, and an exception
    in the first part keeps the second from running. *)
Theorem Age_concat (l1 l2 : list pyval) (out : stdout) :
  Age (PyList (l1 ++ l2)) out
  = match Age (PyList l1) out with
    | (Ok (PyList v1), o1) =>
        match Age (PyList l2) o1 with
        | (Ok (PyList v2), o2) => (Ok (PyList (v1 ++ v2)), o2)
        | other => other
        end
    | other => other
    end.
Proof.
  rewrite !Age_PyList, Age_for_app.
  destruct (Age_for tck_36 l1 [] out) as [[v1 | e] o1]; [|reflexivity].
  rewrite Age_PyList, (Age_for_acc _ l2 v1).
  now destruct (Age_for tck_36 l2 [] o1) as [[v2 | e] o2].
Qed.

(** X7.  The result mirrors the input: a call that returns was given an int
    or a float and returns a float, or was given a sequence and returns a
    list of as many floats. *)
Theorem Age_result_shape (v r : pyval) (out out' : stdout) :
  Age v out = (Ok r, out') ->
  (is_real v = true /\ is_float r = true) \/
  (exists l vs,
     v = PyList l /\ r = PyList vs /\
     List.length vs = List.length l /\ forallb is_float vs = true).
Proof.
  assert (Hs : forall x, Age (of_num x) out = (Ok r, out') ->
                         is_float r = true).
  { intros x. rewrite Age_real. unfold integral_ratio.
    destruct (to_double _) as [a |]; [|discriminate]. cbv zeta.
    destruct (_ =? _)%float; [discriminate|]. now intros [= <- _]. }
  destruct v as [n | f | b | f | | l]; try discriminate.
  - intros H. left. split; [reflexivity | exact (Hs (NInt n) H)].
  - intros H. left. split; [reflexivity | exact (Hs (NFloat f) H)].
  - rewrite Age_PyList.
    destruct (Age_for tck_36 l [] out) as [[vs | e] o] eqn:E; [|discriminate].
    intros [= <- _]. right. exists l, vs.
    destruct (Age_for_ok _ _ _ _ _ _ E) as (vs' & Evs & F & _).
    cbn [app] in Evs. subst vs'. clear E.
    split; [reflexivity|]. split; [reflexivity|].
    split; [symmetry; apply (Forall2_length F)|].
    apply (turns_are_floats _ _ _ F).
Qed.

(** X8.  No call raises OverflowError, however large an int it is given,
    alone or as an element: the clamp comes before the conversion to a
    double. *)
Theorem Age_never_overflows (v : pyval) (out : stdout) :
  fst (Age v out) <> Raise OverflowError.
Proof.
  assert (Hs : forall x, fst (Age (of_num x) out) <> Raise OverflowError).
  { intros x. rewrite Age_real. cbn [fst]. unfold integral_ratio.
    destruct (to_double_clamped x) as [a ->]. cbv zeta.
    destruct (_ =? _)%float; discriminate. }
  destruct v as [n | f | b | f | | l]; try discriminate.
  - exact (Hs (NInt n)).
  - exact (Hs (NFloat f)).
  - rewrite Age_PyList.
    pose proof (Age_for_never_overflows tck_36 l [] out) as H.
    destruct (Age_for tck_36 l [] out) as [[vs | e] o]; [discriminate|].
    cbn [fst] in *. congruence.
Qed.

(** X9.  What an exception says of the input: ZeroDivisionError is raised
    only when the integral from [-0.3] to [-1.6] is zero, and TypeError only
    for an input that is neither an int, nor a float, nor a sequence of
    numbers. *)
Theorem Age_exception_causes (v : pyval) (out : stdout) :
  (fst (Age v out) = Raise ZeroDivisionError ->
   (splint (-0.3) (-1.6) tck_36 =? 0)%float = true) /\
  (fst (Age v out) = Raise TypeError ->
   is_real v = false /\
   forall l, v = PyList l -> forallb is_number l = false).
Proof.
  assert (Hs : forall x,
    (fst (Age (of_num x) out) = Raise ZeroDivisionError ->
     (splint (-0.3) (-1.6) tck_36 =? 0)%float = true) /\
    fst (Age (of_num x) out) <> Raise TypeError).
  { intros x. rewrite Age_real. cbn [fst]. unfold integral_ratio.
    destruct (to_double_clamped x) as [a ->]. cbv zeta.
    destruct (_ =? _)%float; split; try discriminate; reflexivity. }
  destruct v as [n | f | b | f | | l].
  - destruct (Hs (NInt n)) as [H1 H2]. split; [exact H1 | intros H; now elim H2].
  - destruct (Hs (NFloat f)) as [H1 H2]. split; [exact H1 | intros H; now elim H2].
  - split; [discriminate|]. intros _. split; [reflexivity | discriminate].
  - split; [discriminate|]. intros _. split; [reflexivity | discriminate].
  - split; [discriminate|]. intros _. split; [reflexivity | discriminate].
  - rewrite Age_PyList.
    destruct (Age_for tck_36 l [] out) as [[vs | e] o] eqn:E;
      [split; discriminate|].
    assert (Hr : fst (Age_for tck_36 l [] out) = Raise e) by now rewrite E.
    destruct (Age_for_raise _ _ _ _ _ Hr) as (i & Hi & Ht).
    cbn [fst]. split.
    + intros [= ->]. exact (turn_zero_division _ _ Ht).
    + intros [= ->]. split; [reflexivity|]. intros l' [= <-].
      apply not_true_is_false. intros Hall.
      rewrite forallb_forall in Hall. specialize (Hall i Hi).
      rewrite (turn_type_error _ _ Ht) in Hall. discriminate.
Qed.

End MoreProperties.

(** ** The claims at concrete inputs *)

(** The first two bin centres are in order. *)
Lemma histogram_shape_witness :
  nth_error histo_alpha 0 = Some (-3.028380897)%float /\
  nth_error histo_alpha 1 = Some (-2.946254679)%float /\
  (-3.028380897 <? -2.946254679)%float = true.
Proof.
  assert (H0 : nth_error histo_alpha 0 = Some (-3.028380897)%float)
    by reflexivity.
  assert (H1 : nth_error histo_alpha 1 = Some (-2.946254679)%float)
    by reflexivity.
  split; [exact H0|]. split; [exact H1|].
  exact (proj1 (proj2 (proj2 histogram_shape)) 0%nat _ _ H0 H1).
Defined.

(** With the constant spline 1, a call on 1.5. *)

Lemma Age_in_range_witness :
  num_le (NFloat (-2)) (NFloat 1.5) = true /\
  num_le (NFloat 1.5) (NFloat 4.8) = true /\
  exists a : float,
    to_double (PyFloat 1.5) = Ok a /\
    Age (L := Flat.lib) (PyFloat 1.5) []
    = (let t := splrep (Library := Flat.lib) histo_alpha histo_value 3 0.08 in
       let n := splint (Library := Flat.lib) 4.814672904812319 a t in
       let d := splint (Library := Flat.lib) (-0.3) (-1.6) t in
       if (d =? 0)%float then Raise ZeroDivisionError
       else Ok (PyFloat (n * 2 / d)),
       []).
Proof.
  split; [vm_compute; reflexivity|].
  split; [vm_compute; reflexivity|].
  apply (Age_in_range (L := Flat.lib) (NFloat 1.5) []);
    vm_compute; reflexivity.
Defined.




(** A run with the constant spline 1: four elements, two of them out of
    range, give four ages and two warnings, in order; a bool is accepted as
    an element. *)
Example Age_on_a_list :
  let r := Age (L := Flat.lib)
             (PyList [PyInt 5; PyFloat 1.5; PyInt (-3); PyBool true]) [] in
  fst r = Ok (PyList [PyFloat 0.022573699711260477; PyFloat 5.0994967766343366;
                      PyFloat 10.484112161249721; PyFloat 5.8687275458651058])
  /\ snd r = [(too_large (L := Flat.lib) (PyInt 5) ++ nl)%string;
              (too_small (L := Flat.lib) (PyInt (-3)) ++ nl)%string].
Proof. split; vm_compute; reflexivity. Qed.

(** Whether a call returns a number at all, and which, is up to the spline
    library: with the constant spline 1 the call on [0.0] returns a finite
    number, with the constant spline 0 it raises. *)
Remark Age_value_is_up_to_the_library :
  (exists v, Age (L := Flat.lib) (PyFloat 0) [] = (Ok (PyFloat v), []) /\
             is_finite v = true) /\
  Age (L := Null.lib) (PyFloat 0) [] = (Raise ZeroDivisionError, []).
Proof.
  split; [eexists; split; vm_compute; reflexivity|].
  vm_compute. reflexivity.
Qed.

(** ** The further properties at concrete inputs *)


(** With the constant spline 1: the call on a NaN. *)
Lemma Age_nan_witness :
  is_nan nan = true /\
  Age (L := Flat.lib) (PyFloat nan) []
  = (let t := splrep (Library := Flat.lib) histo_alpha histo_value 3 0.08 in
     let n := splint (Library := Flat.lib) alpha_max nan t in
     let d := splint (Library := Flat.lib) (-0.3) (-1.6) t in
     if (d =? 0)%float then Raise ZeroDivisionError
     else Ok (PyFloat (n * 2 / d)),
     []).
Proof.
  assert (H : is_nan nan = true) by reflexivity.
  split; [exact H|].
  exact (Age_nan (L := Flat.lib) nan [] H).
Defined.



(** With the constant spline 1: the result of a call on a float. *)
Lemma Age_result_shape_witness :
  exists r out',
    Age (L := Flat.lib) (PyFloat 1.5) [] = (Ok r, out') /\
    ((is_real (PyFloat 1.5) = true /\ is_float r = true) \/
     (exists l vs,
        PyFloat 1.5 = PyList l /\ r = PyList vs /\
        List.length vs = List.length l /\ forallb is_float vs = true)).
Proof.
  assert (H : exists r out',
    Age (L := Flat.lib) (PyFloat 1.5) [] = (Ok r, out'))
    by (do 2 eexists; vm_compute; reflexivity).
  destruct H as (r & out' & H). exists r, out'. split; [exact H|].
  exact (Age_result_shape (L := Flat.lib) _ r [] out' H).
Defined.

(** With the constant spline 0 every integral is zero and the call on [0.0]
    raises ZeroDivisionError; the call on [None] raises TypeError. *)
Lemma Age_exception_causes_witness :
  fst (Age (L := Null.lib) (PyFloat 0) []) = Raise ZeroDivisionError /\
  (splint (Library := Null.lib) (-0.3) (-1.6)
     (splrep (Library := Null.lib) histo_alpha histo_value 3 0.08) =? 0)%float
  = true /\
  fst (Age (L := Flat.lib) PyNone []) = Raise TypeError /\
  is_real PyNone = false.
Proof.
  assert (H1 : fst (Age (L := Null.lib) (PyFloat 0) [])
               = Raise ZeroDivisionError) by (vm_compute; reflexivity).
  assert (H2 : fst (Age (L := Flat.lib) PyNone []) = Raise TypeError)
    by reflexivity.
  split; [exact H1|].
  split; [exact (proj1 (Age_exception_causes (L := Null.lib) _ []) H1)|].
  split; [exact H2|].
  exact (proj1 (proj2 (Age_exception_causes (L := Flat.lib) _ []) H2)).
Defined.
